(** * Feynman Learning Assistant relay: session registry and request handlers

    A shallow embedding of [src/main.py].  The module-level dictionary
    [active_conversations] is a finite map from conversation ids to session
    records, the [vapi] client is an interface of fallible calls on an
    abstract platform, and every handler is a computation in a state and
    exception monad over the registry, the platform and the list of upstream
    calls issued so far. *)

From Stdlib Require Import ZArith.
From stdpp Require Import gmap strings list fin_maps pretty.

Open Scope Z_scope.
Set Warnings "-register-all".

(** ** Python values and exceptions *)

(** The values [request.json()] can produce. *)
Inductive pyval :=
| PNone
| PBool (b : bool)
| PInt (n : Z)
| PFloat (repr : string)
| PStr (s : string)
| PList (items : list pyval)
| PDict (items : list (string * pyval)).

(** [data.get(key)] on a dictionary: the bound value, or nothing. *)
Fixpoint dict_get (items : list (string * pyval)) (key : string) : option pyval :=
  match items with
  | [] => None
  | (k, v) :: rest => if bool_decide (k = key) then Some v else dict_get rest key
  end.

(** [type(v).__name__] *)
Definition py_type_name (v : pyval) : string :=
  match v with
  | PNone => "NoneType"
  | PBool _ => "bool"
  | PInt _ => "int"
  | PFloat _ => "float"
  | PStr _ => "str"
  | PList _ => "list"
  | PDict _ => "dict"
  end.

(** [owner != v] where [owner] is a [str]: only an equal [str] compares equal. *)
Definition str_ne (owner : string) (v : pyval) : bool :=
  match v with
  | PStr s => negb (bool_decide (owner = s))
  | _ => true
  end.

(** Exceptions seen by the handlers: FastAPI's [HTTPException] and every other
    subclass of [Exception], kept with its class name and message. *)
Inductive exn :=
| HTTPException (status_code : Z) (detail : string)
| PyException (cls : string) (msg : string).

(** ** The vapi client *)

(** The objects returned by the client; only [.id] and [.content] are read. *)
Record vapi_obj := { obj_id : string; obj_content : string }.

Inductive vapi_call :=
| Assistant_create (name model instructions : string)
| Conversation_create (assistant_id : string) (metadata : list (string * string))
| Message_create (conversation_id role : string) (content : option string)
| Conversation_delete (conversation_id : string).

(** What lies outside [main.py]: the platform behind [vapi_python], whose
    calls return an object or raise, and Python's [str(e)]. *)
Class External := {
  platform : Type;
  vapi : platform -> vapi_call -> platform * (exn + vapi_obj);
  exc_str : exn -> string
}.

(** ** Request models *)

(** [class ConversationInput(BaseModel)] *)
Record ConversationInput := {
  ci_message : string;
  ci_conversation_id : option string;
  ci_user_id : string
}.

(** [class NewSession(BaseModel)] *)
Record NewSession := {
  ns_topic : string;
  ns_difficulty_level : string;
  ns_user_id : string
}.

(** Construction of a [NewSession] from the request fields:
    [difficulty_level: str = "beginner"] is the only field with a default. *)
Definition NewSession_init (topic : string) (difficulty_level : option string)
    (user_id : string) : NewSession :=
  {| ns_topic := topic;
     ns_difficulty_level := default "beginner"%string difficulty_level;
     ns_user_id := user_id |}.

(** Construction of a [ConversationInput]:
    [conversation_id: Optional[str] = None]. *)
Definition ConversationInput_init (message : string) (conversation_id : option string)
    (user_id : string) : ConversationInput :=
  {| ci_message := message;
     ci_conversation_id := conversation_id;
     ci_user_id := user_id |}.

(** The [Request] of the delete endpoint: what [await request.json()] gives. *)
Record Request := { request_json : exn + pyval }.

(** ** The registry *)

(** The dictionary stored under a conversation id. *)
Record conv_data := {
  assistant_id : string;
  topic : string;
  user_id : string
}.

(** What a handler returns on success. *)
Inductive reply :=
| CreateReply (conversation_id assistant_id topic : string)
| SendReply (response message_id conversation_id : string)
| ConversationsReply (conversations : gmap string conv_data)
| DeleteReply (status message : string)
| HealthReply (status : string).

(** The text between the triple quotes of the [instructions] f-string. *)
Definition nl : string := String (Ascii.ascii_of_nat 10) EmptyString.
Definition sp16 : string := "                ".
Definition sp12 : string := "            ".

Definition instructions_text (topic difficulty_level : string) : string :=
  nl +:+ sp16 +:+ "You are a Feynman Learning Assistant teaching about " +:+ topic
     +:+ " at a " +:+ difficulty_level +:+ " level." +:+ nl
  +:+ sp16 +:+ "Your goal is to guide the user through the Feynman technique:" +:+ nl
  +:+ sp16 +:+ "1. Have them explain what they know about the topic" +:+ nl
  +:+ sp16 +:+ "2. Identify gaps in their understanding" +:+ nl
  +:+ sp16 +:+ "3. Help them simplify complex concepts" +:+ nl
  +:+ sp16 +:+ "4. Guide them to teach the concept back to you" +:+ nl
  +:+ sp16 +:+ "5. Provide feedback on their explanations" +:+ nl
  +:+ sp16 +:+ nl
  +:+ sp16 +:+ "Always use simple language and encourage the user to explain concepts in their own words." +:+ nl
  +:+ sp12.

Definition assistant_name (topic : string) : string :=
  "Feynman Learning Assistant - " +:+ topic.

Definition assistant_model : string := "anthropic/claude-3-opus-20240229".

(** ** The handler monad *)

Section Handlers.
Context `{E : External}.

(** The process state: the registry, the platform, and the upstream calls
    issued so far (oldest first). *)
Record world := {
  active_conversations : gmap string conv_data;
  platform_state : platform;
  upstream_log : list vapi_call
}.

Definition M (A : Type) : Type := world -> world * (exn + A).

Definition ret {A} (a : A) : M A := fun w => (w, inr a).

Definition raise {A} (e : exn) : M A := fun w => (w, inl e).

Definition bind {A B} (m : M A) (k : A -> M B) : M B :=
  fun w => match m w with
           | (w', inr a) => k a w'
           | (w', inl e) => (w', inl e)
           end.

(** [try: body / except Exception as e: handler e] *)
Definition try_except {A} (body : M A) (handler : exn -> M A) : M A :=
  fun w => match body w with
           | (w', inr a) => (w', inr a)
           | (w', inl e) => handler e w'
           end.

Definition get_registry : M (gmap string conv_data) :=
  fun w => (w, inr (active_conversations w)).

Definition set_registry (m : gmap string conv_data) : M unit :=
  fun w => ({| active_conversations := m;
               platform_state := platform_state w;
               upstream_log := upstream_log w |}, inr tt).

(** One call of the client: recorded, then answered by the platform. *)
Definition call (c : vapi_call) : M vapi_obj :=
  fun w => let '(p, r) := vapi (platform_state w) c in
           ({| active_conversations := active_conversations w;
               platform_state := p;
               upstream_log := upstream_log w ++ [c] |}, r).

Definition lift_result {A} (r : exn + A) : M A := fun w => (w, r).

End Handlers.

Arguments world {E}.
Arguments M {E} A.

Declare Scope handler_scope.
Delimit Scope handler_scope with handler.
Notation "x <- m ;; k" := (bind m (fun x => k))
  (at level 100, m at next level, right associativity) : handler_scope.
Notation "m ;;; k" := (bind m (fun _ => k))
  (at level 100, right associativity) : handler_scope.

Open Scope handler_scope.

(** ** The handlers *)

Section Endpoints.
Context `{E : External}.

(** [POST /create_assistant] *)
Definition create_assistant (session : NewSession) : M reply :=
  try_except
    (assistant <- call (Assistant_create
                          (assistant_name (ns_topic session))
                          assistant_model
                          (instructions_text (ns_topic session)
                                             (ns_difficulty_level session))) ;;
     conversation <- call (Conversation_create
                             (obj_id assistant)
                             [("user_id", ns_user_id session);
                              ("topic", ns_topic session)]%string) ;;
     registry <- get_registry ;;
     set_registry (<[obj_id conversation :=
                       {| assistant_id := obj_id assistant;
                          topic := ns_topic session;
                          user_id := ns_user_id session |}]> registry) ;;;
     ret (CreateReply (obj_id conversation) (obj_id assistant) (ns_topic session)))
    (fun e => raise (HTTPException 500
                       ("Failed to create assistant: " +:+ exc_str e))).

(** [if not conversation_input.conversation_id]: [None] and the empty
    string are both falsy. *)
Definition truthy_id (conversation_id : option string) : option string :=
  match conversation_id with
  | Some EmptyString => None
  | other => other
  end.

(** [POST /send_message] *)
Definition send_message (conversation_input : ConversationInput) : M reply :=
  try_except
    (match truthy_id (ci_conversation_id conversation_input) with
     | None => raise (HTTPException 400 "Conversation ID is required")
     | Some cid =>
         registry <- get_registry ;;
         match registry !! cid with
         | None => raise (HTTPException 404 "Conversation not found")
         | Some data =>
             if bool_decide (user_id data ≠ ci_user_id conversation_input)
             then raise (HTTPException 403 "Unauthorized access to conversation")
             else
               message <- call (Message_create cid "user"
                                  (Some (ci_message conversation_input))) ;;
               response <- call (Message_create cid "assistant" None) ;;
               ret (SendReply (obj_content response) (obj_id response) cid)
         end
     end)
    (fun e => raise (HTTPException 500
                       ("Failed to process message: " +:+ exc_str e))).

(** [del active_conversations[key]]: a missing key is a [KeyError]. *)
Definition del_registry (key : string) : M unit :=
  registry <- get_registry ;;
  match registry !! key with
  | None => raise (PyException "KeyError" key)
  | Some _ => set_registry (delete key registry)
  end.

(** [GET /conversations/{user_id}] *)
Definition get_user_conversations (uid : string) : M reply :=
  try_except
    (registry <- get_registry ;;
     ret (ConversationsReply
            (filter (fun kv : string * conv_data => user_id kv.2 = uid) registry)))
    (fun e => raise (HTTPException 500
                       ("Failed to get conversations: " +:+ exc_str e))).

(** [data.get("user_id")]: only a dictionary has [get]; on any other value
    the attribute lookup raises, naming the type of the value. *)
Definition body_get_user_id (data : pyval) : exn + pyval :=
  match data with
  | PDict items => inr (default PNone (dict_get items "user_id"))
  | _ => inl (PyException "AttributeError"
                ("'" +:+ py_type_name data +:+ "' object has no attribute 'get'"))
  end.

(** [DELETE /conversation/{conversation_id}] *)
Definition delete_conversation (conversation_id : string) (request : Request)
    : M reply :=
  try_except
    (data <- lift_result (request_json request) ;;
     uid <- lift_result (body_get_user_id data) ;;
     registry <- get_registry ;;
     match registry !! conversation_id with
     | None => raise (HTTPException 404 "Conversation not found")
     | Some stored =>
         if str_ne (user_id stored) uid
         then raise (HTTPException 403 "Unauthorized access to conversation")
         else
           call (Conversation_delete conversation_id) ;;;
           registry' <- get_registry ;;
           set_registry (delete conversation_id registry') ;;;
           ret (DeleteReply "success" "Conversation deleted")
     end)
    (fun e => raise (HTTPException 500
                       ("Failed to delete conversation: " +:+ exc_str e))).

(** [GET /health] *)
Definition health_check : M reply := ret (HealthReply "healthy").

(** The requests the application serves, and the dispatch on them. *)
Inductive request :=
| ReqCreate (session : NewSession)
| ReqSend (conversation_input : ConversationInput)
| ReqList (uid : string)
| ReqDelete (conversation_id : string) (body : Request)
| ReqHealth.

Definition handle (r : request) : M reply :=
  match r with
  | ReqCreate session => create_assistant session
  | ReqSend conversation_input => send_message conversation_input
  | ReqList uid => get_user_conversations uid
  | ReqDelete conversation_id body => delete_conversation conversation_id body
  | ReqHealth => health_check
  end.

(** The status code FastAPI answers with: the code of a raised
    [HTTPException], 500 for any other exception, 200 for a returned value. *)
Definition http_status {A} (r : exn + A) : Z :=
  match r with
  | inl (HTTPException code _) => code
  | inl (PyException _ _) => 500
  | inr _ => 200
  end.

Definition is_error {A} (r : exn + A) : bool :=
  match r with inl _ => true | inr _ => false end.

(** The data-model invariant of the registry: every stored record has a
    non-empty owner and a non-empty assistant id. *)
Definition registry_inv (m : gmap string conv_data) : Prop :=
  forall cid d, m !! cid = Some d -> user_id d ≠ ""%string /\ assistant_id d ≠ ""%string.

(** The conversation ids listed for a user by [get_user_conversations]. *)
Definition listed (uid cid : string) (w : world) : Prop :=
  exists m d, (get_user_conversations uid w).2 = inr (ConversationsReply m)
              /\ m !! cid = Some d.

End Endpoints.

(** ** Concrete platforms *)

(** [str(e)] as Starlette prints an [HTTPException], and the message of any
    other exception. *)
Definition starlette_str (e : exn) : string :=
  match e with
  | HTTPException code detail => pretty code +:+ ": " +:+ detail
  | PyException _ msg => msg
  end.

(** A platform that accepts every call and numbers the objects it creates. *)
Definition counting_vapi (n : nat) (c : vapi_call) : nat * (exn + vapi_obj) :=
  match c with
  | Assistant_create _ _ _ =>
      (S n, inr {| obj_id := "asst_" +:+ pretty n; obj_content := "" |})
  | Conversation_create _ _ =>
      (S n, inr {| obj_id := "conv_" +:+ pretty n; obj_content := "" |})
  | Message_create _ role _ =>
      (S n, inr {| obj_id := "msg_" +:+ pretty n;
                   obj_content := "reply to turn " +:+ pretty n |})
  | Conversation_delete _ =>
      (n, inr {| obj_id := ""; obj_content := "" |})
  end.

Definition counting_platform : External :=
  {| platform := nat; vapi := counting_vapi; exc_str := starlette_str |}.

(** A platform that creates assistants but rejects every other call. *)
Definition rejecting_vapi (n : nat) (c : vapi_call) : nat * (exn + vapi_obj) :=
  match c with
  | Assistant_create _ _ _ =>
      (S n, inr {| obj_id := "asst_" +:+ pretty n; obj_content := "" |})
  | _ => (n, inl (PyException "VapiError" "request rejected"))
  end.

Definition rejecting_platform : External :=
  {| platform := nat; vapi := rejecting_vapi; exc_str := starlette_str |}.

Definition fresh_world (E : External) (p : @platform E) : @world E :=
  {| active_conversations := ∅; platform_state := p; upstream_log := [] |}.

(** The registry holding one session [c1] of user [u1]. *)
Definition one_session (E : External) (p : @platform E) : @world E :=
  {| active_conversations :=
       {[ "c1"%string := {| assistant_id := "a1"; topic := "Photosynthesis";
                            user_id := "u1" |} ]};
     platform_state := p;
     upstream_log := [] |}.

Definition json_body (data : pyval) : Request := {| request_json := inr data |}.

(** A platform that takes the user's turn but produces no assistant turn. *)
Definition mute_vapi (n : nat) (c : vapi_call) : nat * (exn + vapi_obj) :=
  match c with
  | Message_create _ _ None => (n, inl (PyException "VapiError" "no reply generated"))
  | _ => counting_vapi n c
  end.

Definition mute_platform : External :=
  {| platform := nat; vapi := mute_vapi; exc_str := starlette_str |}.

(** A platform that cannot be reached at all. *)
Definition down_vapi (n : nat) (c : vapi_call) : nat * (exn + vapi_obj) :=
  (n, inl (PyException "ConnectionError" "platform unreachable")).

Definition down_platform : External :=
  {| platform := nat; vapi := down_vapi; exc_str := starlette_str |}.

(** ** Serving requests *)

Section Serving.
Context `{E : External}.

(** [delete_conversation] with its last statement written as the [del] it
    is, which raises on a missing key. *)
Definition delete_conversation_del (conversation_id : string) (request : Request)
    : M reply :=
  try_except
    (data <- lift_result (request_json request) ;;
     uid <- lift_result (body_get_user_id data) ;;
     registry <- get_registry ;;
     match registry !! conversation_id with
     | None => raise (HTTPException 404 "Conversation not found")
     | Some stored =>
         if str_ne (user_id stored) uid
         then raise (HTTPException 403 "Unauthorized access to conversation")
         else
           call (Conversation_delete conversation_id) ;;;
           del_registry conversation_id ;;;
           ret (DeleteReply "success" "Conversation deleted")
     end)
    (fun e => raise (HTTPException 500
                       ("Failed to delete conversation: " +:+ exc_str e))).

(** Requests served one after the other, oldest first, with their answers. *)
Fixpoint serve (rs : list request) (w : world) : world * list (exn + reply) :=
  match rs with
  | [] => (w, [])
  | r :: rest =>
      let '(w1, answer) := handle r w in
      let '(w2, answers) := serve rest w1 in
      (w2, answer :: answers)
  end.

Definition is_create (r : request) : bool :=
  match r with ReqCreate _ => true | _ => false end.

(** The upstream calls a request may give rise to: the two creations for
    Create Session, messages of the addressed conversation for Send Message,
    the deletion of the addressed conversation for Delete Session. *)
Definition call_of_request (r : request) (c : vapi_call) : Prop :=
  match r, c with
  | ReqCreate _, Assistant_create _ _ _ => True
  | ReqCreate _, Conversation_create _ _ => True
  | ReqSend ci, Message_create cid _ _ => ci_conversation_id ci = Some cid
  | ReqDelete cid _, Conversation_delete cid' => cid' = cid
  | _, _ => False
  end.

End Serving.


(** ** Properties of the handlers *)

Section Properties.
Context `{E : External}.
Implicit Types (w : world) (cid uid : string) (d : conv_data).

(** *** The handler boundary: every exception leaves as a 500 *)

Lemma try_except_500 {A} (body : M A) (prefix : string) w :
  let r := try_except body
             (fun e => raise (HTTPException 500 (prefix +:+ exc_str e))) w in
  is_error r.2 = true -> http_status r.2 = 500.
Proof.
  unfold try_except, raise.
  destruct (body w) as [w' [e|a]]; simpl; [done | discriminate].
Qed.

(** No handler ever answers with a status other than 200 or 500. *)
Lemma handle_error_status w (r : request) :
  is_error (handle r w).2 = true -> http_status (handle r w).2 = 500.
Proof.
  destruct r as [s|ci|uid|cid body|]; cbn [handle].
  - apply (try_except_500 _ "Failed to create assistant: ").
  - apply (try_except_500 _ "Failed to process message: ").
  - apply (try_except_500 _ "Failed to get conversations: ").
  - apply (try_except_500 _ "Failed to delete conversation: ").
  - discriminate.
Qed.

Lemma status_500_is_error {A} (r : exn + A) :
  http_status r = 500 -> is_error r = true.
Proof. destruct r; [done | discriminate]. Qed.

(** Send Message, once the id is known to be truthy. *)
Lemma truthy_id_Some cid : cid ≠ ""%string -> truthy_id (Some cid) = Some cid.
Proof. destruct cid; [congruence | reflexivity]. Qed.

(** C1. Send Message with an id that was never created, or with an id owned
    by another user: the 404 or 403 raised inside the [try] is caught by the
    [except Exception] clause and leaves the handler as a 500. *)
Theorem send_message_auth_failures_leave_as_500 w (ci : ConversationInput) cid :
  ci_conversation_id ci = Some cid ->
  cid ≠ ""%string ->
  (active_conversations w !! cid = None ->
   send_message ci w =
     (w, inl (HTTPException 500
                ("Failed to process message: "
                 +:+ exc_str (HTTPException 404 "Conversation not found"))))) /\
  (forall d, active_conversations w !! cid = Some d ->
             user_id d ≠ ci_user_id ci ->
   send_message ci w =
     (w, inl (HTTPException 500
                ("Failed to process message: "
                 +:+ exc_str (HTTPException 403 "Unauthorized access to conversation"))))).
Proof.
  intros Hid Hne. unfold send_message, try_except, bind, get_registry, raise.
  rewrite Hid, (truthy_id_Some _ Hne). simpl. split.
  - intros ->. reflexivity.
  - intros d -> Hown. rewrite bool_decide_eq_true_2 by done. reflexivity.
Qed.

(** C6. Send Message without a conversation id: the 400 raised inside the
    [try] is caught as well and leaves the handler as a 500. *)
Theorem send_message_missing_id_leaves_as_500 w (ci : ConversationInput) :
  ci_conversation_id ci = None ->
  send_message ci w =
    (w, inl (HTTPException 500
               ("Failed to process message: "
                +:+ exc_str (HTTPException 400 "Conversation ID is required")))).
Proof.
  intros Hid. unfold send_message, try_except, raise. rewrite Hid. reflexivity.
Qed.

(** C7. Send Message that fails authorization (unknown id, or an id owned by
    another user) issues no upstream call: the log of calls and the platform
    are as before, and so is the registry. *)
Theorem send_message_unauthorized_no_upstream w (ci : ConversationInput) cid :
  ci_conversation_id ci = Some cid ->
  (active_conversations w !! cid = None \/
   exists d, active_conversations w !! cid = Some d /\ user_id d ≠ ci_user_id ci) ->
  (send_message ci w).1 = w /\
  upstream_log (send_message ci w).1 = upstream_log w /\
  platform_state (send_message ci w).1 = platform_state w /\
  is_error (send_message ci w).2 = true.
Proof.
  intros Hid Hauth.
  assert (Hw : (send_message ci w).1 = w /\ is_error (send_message ci w).2 = true).
  { unfold send_message, try_except, bind, get_registry, raise. rewrite Hid.
    destruct cid as [|a cid']; simpl; [done|].
    destruct Hauth as [-> | (d & -> & Hown)]; [done|].
    rewrite bool_decide_eq_true_2 by done. done. }
  destruct Hw as [Hw Herr]. rewrite Hw. done.
Qed.

(** *** Create Session *)

(** What [create_assistant] can do to the registry: nothing, or one insertion
    of a record made of the request's fields and the identifiers returned by
    the two upstream calls. *)
Lemma create_assistant_cases w (s : NewSession) :
  (is_error (create_assistant s w).2 = true /\
   active_conversations (create_assistant s w).1 = active_conversations w) \/
  (exists p1 a p2 c,
     vapi (platform_state w)
          (Assistant_create (assistant_name (ns_topic s)) assistant_model
             (instructions_text (ns_topic s) (ns_difficulty_level s))) = (p1, inr a) /\
     vapi p1 (Conversation_create (obj_id a)
                [("user_id", ns_user_id s); ("topic", ns_topic s)]%string) = (p2, inr c) /\
     (create_assistant s w).2 = inr (CreateReply (obj_id c) (obj_id a) (ns_topic s)) /\
     active_conversations (create_assistant s w).1 =
       <[obj_id c := {| assistant_id := obj_id a; topic := ns_topic s;
                        user_id := ns_user_id s |}]> (active_conversations w)).
Proof.
  unfold create_assistant, try_except, bind, call, get_registry, set_registry, ret, raise.
  simpl.
  destruct (vapi (platform_state w) _) as [p1 [e|a]] eqn:Ha; simpl; [by left|].
  destruct (vapi p1 _) as [p2 [e|c]] eqn:Hc; simpl; [by left|].
  right. exists p1, a, p2, c. done.
Qed.

(** C4. Create Session is all-or-nothing: when the assistant cannot be
    created, or when it is created and the conversation cannot, the handler
    answers 500 and the registry is the one it started from. *)
Theorem create_assistant_all_or_nothing w (s : NewSession) :
  ((exists p e,
      vapi (platform_state w)
           (Assistant_create (assistant_name (ns_topic s)) assistant_model
              (instructions_text (ns_topic s) (ns_difficulty_level s))) = (p, inl e)) \/
   (exists p1 a p2 e,
      vapi (platform_state w)
           (Assistant_create (assistant_name (ns_topic s)) assistant_model
              (instructions_text (ns_topic s) (ns_difficulty_level s))) = (p1, inr a) /\
      vapi p1 (Conversation_create (obj_id a)
                 [("user_id", ns_user_id s); ("topic", ns_topic s)]%string) = (p2, inl e))) ->
  http_status (create_assistant s w).2 = 500 /\
  active_conversations (create_assistant s w).1 = active_conversations w.
Proof.
  unfold create_assistant, try_except, bind, call, get_registry, set_registry, ret, raise.
  simpl.
  intros [(p & e & Ha) | (p1 & a & p2 & e & Ha & Hc)]; rewrite Ha; simpl; [done|].
  rewrite Hc. done.
Qed.

(** C10. A Create Session request that omits [difficulty_level] is served
    with ["beginner"]: the first upstream call made for it is the assistant
    creation, and the instruction text submitted there reads, around the
    request's topic, "... teaching about <topic> at a beginner level." followed
    by the fixed steps of the technique. *)
Theorem create_assistant_default_difficulty w (topic uid : string) :
  ns_difficulty_level (NewSession_init topic None uid) = "beginner"%string /\
  exists rest,
    upstream_log (create_assistant (NewSession_init topic None uid) w).1 =
      upstream_log w ++
      Assistant_create
        ("Feynman Learning Assistant - " +:+ topic)
        "anthropic/claude-3-opus-20240229"
        (let newline := String (Ascii.ascii_of_nat 10) EmptyString in
         newline
         +:+ "                You are a Feynman Learning Assistant teaching about "
         +:+ topic +:+ " at a beginner level." +:+ newline
         +:+ "                Your goal is to guide the user through the Feynman technique:"
         +:+ newline
         +:+ "                1. Have them explain what they know about the topic"
         +:+ newline
         +:+ "                2. Identify gaps in their understanding" +:+ newline
         +:+ "                3. Help them simplify complex concepts" +:+ newline
         +:+ "                4. Guide them to teach the concept back to you" +:+ newline
         +:+ "                5. Provide feedback on their explanations" +:+ newline
         +:+ "                " +:+ newline
         +:+ "                Always use simple language and encourage the user to explain concepts in their own words."
         +:+ newline
         +:+ "            ")
      :: rest.
Proof.
  split; [reflexivity|].
  unfold create_assistant, try_except, bind, call, get_registry, set_registry, ret, raise.
  simpl.
  destruct (vapi (platform_state w) _) as [p1 [e|a]]; simpl; [by exists []|].
  destruct (vapi p1 _) as [p2 [e|c]]; simpl; rewrite <- app_assoc; eauto.
Qed.

(** *** List Conversations *)

Lemma get_user_conversations_eq uid w :
  get_user_conversations uid w =
    (w, inr (ConversationsReply
               (filter (fun kv : string * conv_data => user_id kv.2 = uid)
                       (active_conversations w)))).
Proof. reflexivity. Qed.

Lemma listed_iff uid cid w :
  listed uid cid w <->
  exists d, active_conversations w !! cid = Some d /\ user_id d = uid.
Proof.
  unfold listed. rewrite get_user_conversations_eq. simpl. split.
  - intros (m & d & Hm & Hd). injection Hm as <-.
    apply map_lookup_filter_Some in Hd as [Hd Hu]. eauto.
  - intros (d & Hd & Hu). eexists _, d. split; [reflexivity|].
    apply map_lookup_filter_Some. done.
Qed.

(** C8. A session that Create Session has just created is listed for the
    user who created it, and for no other user. *)
Theorem created_session_listed_for_owner_only w w' (s : NewSession) (r : reply) :
  create_assistant s w = (w', inr r) ->
  exists cid aid,
    r = CreateReply cid aid (ns_topic s) /\
    listed (ns_user_id s) cid w' /\
    forall uid, uid ≠ ns_user_id s -> ~ listed uid cid w'.
Proof.
  intros Hrun.
  destruct (create_assistant_cases w s) as [[Herr _] | (p1 & a & p2 & c & _ & _ & Hr & Hreg)].
  { rewrite Hrun in Herr. discriminate. }
  rewrite Hrun in Hr, Hreg. simpl in Hr, Hreg. injection Hr as ->.
  exists (obj_id c), (obj_id a). split; [done|]. split.
  - apply listed_iff. eexists. rewrite Hreg, lookup_insert_eq. done.
  - intros uid Hne (d & Hd & Hu)%listed_iff.
    rewrite Hreg, lookup_insert_eq in Hd. injection Hd as <-. simpl in Hu. congruence.
Qed.

(** *** Delete Session *)

(** What [delete_conversation] can do to the registry: nothing, with an error
    as its answer, or, after a successful upstream deletion requested by the
    owner, the removal of the entry. *)
Lemma delete_conversation_cases w cid (req : Request) :
  (http_status (delete_conversation cid req w).2 = 500 /\
   active_conversations (delete_conversation cid req w).1 = active_conversations w) \/
  (exists d p o,
     active_conversations w !! cid = Some d /\
     vapi (platform_state w) (Conversation_delete cid) = (p, inr o) /\
     (delete_conversation cid req w).2 = inr (DeleteReply "success" "Conversation deleted") /\
     active_conversations (delete_conversation cid req w).1 =
       delete cid (active_conversations w)).
Proof.
  unfold delete_conversation, del_registry, try_except, bind, lift_result, call,
    get_registry, set_registry, ret, raise.
  destruct (request_json req) as [e|data]; simpl; [by left|].
  destruct (body_get_user_id data) as [e|uid]; simpl; [by left|].
  destruct (active_conversations w !! cid) as [d|] eqn:Hd; simpl; [|by left].
  destruct (str_ne (user_id d) uid); simpl; [by left|].
  destruct (vapi (platform_state w) _) as [p [e|o]] eqn:Hv; simpl; [by left|].
  right. exists d, p, o. done.
Qed.

(** The owner's delete reaches the platform; when the platform refuses, the
    call is on record and the entry is still in the registry. *)
Lemma delete_conversation_refused w cid (req : Request) data d p e :
  request_json req = inr data ->
  body_get_user_id data = inr (PStr (user_id d)) ->
  active_conversations w !! cid = Some d ->
  vapi (platform_state w) (Conversation_delete cid) = (p, inl e) ->
  delete_conversation cid req w =
    ({| active_conversations := active_conversations w;
        platform_state := p;
        upstream_log := upstream_log w ++ [Conversation_delete cid] |},
     inl (HTTPException 500 ("Failed to delete conversation: " +:+ exc_str e))).
Proof.
  intros Hj Hu Hd Hv.
  unfold delete_conversation, del_registry, try_except, bind, lift_result, call,
    get_registry, set_registry, ret, raise.
  rewrite Hj. simpl. rewrite Hu. simpl. rewrite Hd. simpl.
  rewrite bool_decide_eq_true_2 by done. simpl. rewrite Hv. reflexivity.
Qed.

(** C3. When the upstream deletion fails, Delete Session answers with an
    error and leaves the registry as it was: an entry present before the
    request is present after it. *)
Theorem delete_conversation_upstream_failure w cid (req : Request) p e :
  vapi (platform_state w) (Conversation_delete cid) = (p, inl e) ->
  is_error (delete_conversation cid req w).2 = true /\
  http_status (delete_conversation cid req w).2 = 500 /\
  active_conversations (delete_conversation cid req w).1 = active_conversations w /\
  forall d, active_conversations w !! cid = Some d ->
            active_conversations (delete_conversation cid req w).1 !! cid = Some d.
Proof.
  intros Hv.
  destruct (delete_conversation_cases w cid req)
    as [[Hst Hreg] | (d & p' & o & _ & Hv' & _)]; [|congruence].
  rewrite Hreg. repeat split; try done.
  by apply status_500_is_error.
Qed.

(** C5. Delete Session on an id that is not in the registry: the 404 raised
    inside the [try] is caught by the [except Exception] clause and leaves the
    handler as a 500; nothing is changed. *)
Theorem delete_conversation_unknown_id_leaves_as_500 w cid (req : Request) :
  active_conversations w !! cid = None ->
  (delete_conversation cid req w).1 = w /\
  http_status (delete_conversation cid req w).2 = 500 /\
  (forall data (v : pyval),
     request_json req = inr data ->
     body_get_user_id data = inr v ->
     (delete_conversation cid req w).2 =
       inl (HTTPException 500
              ("Failed to delete conversation: "
               +:+ exc_str (HTTPException 404 "Conversation not found")))).
Proof.
  intros Hd.
  unfold delete_conversation, del_registry, try_except, bind, lift_result, call,
    get_registry, set_registry, ret, raise.
  destruct (request_json req) as [e|data]; simpl; [by repeat split|].
  destruct (body_get_user_id data) as [e|v] eqn:Hb; simpl.
  { repeat split; try done. intros ? ? [= <-] Hb'. congruence. }
  rewrite Hd. simpl. repeat split; done.
Qed.

(** After the owner's delete has succeeded the id is listed for nobody, and
    a second delete of it does not succeed. *)
Lemma delete_conversation_then_gone w cid (req : Request) r :
  (delete_conversation cid req w).2 = inr r ->
  (forall uid, ~ listed uid cid (delete_conversation cid req w).1) /\
  (forall req', is_error (delete_conversation cid req' (delete_conversation cid req w).1).2 = true).
Proof.
  intros Hok.
  destruct (delete_conversation_cases w cid req)
    as [[Hst _] | (d & p & o & _ & _ & _ & Hreg)].
  { rewrite Hok in Hst. discriminate. }
  assert (Hgone : active_conversations (delete_conversation cid req w).1 !! cid = None).
  { rewrite Hreg. apply lookup_delete_eq. }
  split.
  - intros uid (d' & Hd' & _)%listed_iff. congruence.
  - intros req'.
    destruct (delete_conversation_cases (delete_conversation cid req w).1 cid req')
      as [[Hst _] | (d' & _ & _ & Hd' & _)]; [|congruence].
    by apply status_500_is_error.
Qed.

(** C9. A Delete Session request whose JSON body has no [user_id] field
    changes nothing: [data.get("user_id")] is [None], which differs from every
    stored owner, so neither the upstream deletion nor the removal from the
    registry is reached and the request fails. *)
Theorem delete_conversation_without_user_id_is_inert w cid (req : Request) items :
  request_json req = inr (PDict items) ->
  dict_get items "user_id" = None ->
  (delete_conversation cid req w).1 = w /\
  active_conversations (delete_conversation cid req w).1 = active_conversations w /\
  upstream_log (delete_conversation cid req w).1 = upstream_log w /\
  is_error (delete_conversation cid req w).2 = true.
Proof.
  intros Hj Hg.
  assert (Hw : (delete_conversation cid req w).1 = w /\
               is_error (delete_conversation cid req w).2 = true).
  { unfold delete_conversation, del_registry, try_except, bind, lift_result, call,
      get_registry, set_registry, ret, raise.
    rewrite Hj. simpl. rewrite Hg. simpl.
    destruct (active_conversations w !! cid) as [d|]; simpl; done. }
  destruct Hw as [Hw Herr]. rewrite Hw. done.
Qed.

(** *** The registry invariant *)

Lemma send_message_registry w (ci : ConversationInput) :
  active_conversations (send_message ci w).1 = active_conversations w.
Proof.
  unfold send_message, try_except, bind, call, get_registry, ret, raise.
  destruct (truthy_id _) as [cid|]; simpl; [|done].
  destruct (active_conversations w !! cid) as [d|]; simpl; [|done].
  case_bool_decide; simpl; [done|].
  destruct (vapi (platform_state w) _) as [p1 [e|m]]; simpl; [done|].
  destruct (vapi p1 _) as [p2 [e|m']]; simpl; done.
Qed.

Lemma registry_inv_insert (m : gmap string conv_data) cid d :
  registry_inv m -> user_id d ≠ ""%string -> assistant_id d ≠ ""%string ->
  registry_inv (<[cid := d]> m).
Proof.
  intros Hm Hu Ha k d' Hk. destruct (decide (cid = k)) as [->|Hne].
  - rewrite lookup_insert_eq in Hk. injection Hk as <-. done.
  - rewrite lookup_insert_ne in Hk by done. eauto.
Qed.

Lemma registry_inv_delete (m : gmap string conv_data) cid :
  registry_inv m -> registry_inv (delete cid m).
Proof.
  intros Hm k d Hk. apply lookup_delete_Some in Hk as [_ Hk]. eauto.
Qed.

(** C2 (as the code has it). Create Session stores whatever owner it is
    given; the invariant that every registry record has a non-empty owner and
    a non-empty assistant id is preserved by every handler as long as Create
    Session requests carry a non-empty [user_id] and the platform assigns
    non-empty assistant identifiers. *)
Theorem handlers_preserve_registry_inv w (r : request) :
  (forall p nm mdl ins p' o,
     vapi p (Assistant_create nm mdl ins) = (p', inr o) -> obj_id o ≠ ""%string) ->
  (forall s, r = ReqCreate s -> ns_user_id s ≠ ""%string) ->
  registry_inv (active_conversations w) ->
  registry_inv (active_conversations (handle r w).1).
Proof.
  intros Hplat Hreq Hinv. destruct r as [s|ci|uid|cid body|]; simpl.
  - destruct (create_assistant_cases w s)
      as [[_ ->] | (p1 & a & p2 & c & Ha & _ & _ & ->)]; [done|].
    apply registry_inv_insert; simpl; eauto.
  - by rewrite send_message_registry.
  - done.
  - destruct (delete_conversation_cases w cid body)
      as [[_ ->] | (d & p & o & _ & _ & _ & ->)]; [done|].
    by apply registry_inv_delete.
  - done.
Qed.

(** *** Send Message: the authorized paths *)

Ltac run_handler :=
  unfold create_assistant, send_message, delete_conversation, delete_conversation_del,
    del_registry, get_user_conversations, health_check,
    try_except, bind, lift_result, call, get_registry, set_registry, ret, raise.

(** X1. The owner's message to a registered conversation, with both upstream
    calls accepted: the user's turn is posted with the request's text, the
    assistant's turn is requested next, and the answer carries the content
    and id of that second object and the request's conversation id.  The
    registry is not touched. *)
Theorem send_message_owner_success w (ci : ConversationInput) cid d p1 p2 (m resp : vapi_obj) :
  ci_conversation_id ci = Some cid ->
  cid ≠ ""%string ->
  active_conversations w !! cid = Some d ->
  user_id d = ci_user_id ci ->
  vapi (platform_state w) (Message_create cid "user" (Some (ci_message ci))) = (p1, inr m) ->
  vapi p1 (Message_create cid "assistant" None) = (p2, inr resp) ->
  send_message ci w =
    ({| active_conversations := active_conversations w;
        platform_state := p2;
        upstream_log := upstream_log w ++
                        [Message_create cid "user" (Some (ci_message ci));
                         Message_create cid "assistant" None] |},
     inr (SendReply (obj_content resp) (obj_id resp) cid)).
Proof.
  intros Hid Hne Hd Hown H1 H2. run_handler.
  rewrite Hid, (truthy_id_Some _ Hne). simpl. rewrite Hd.
  rewrite bool_decide_eq_false_2 by (intros Hx; done). simpl.
  rewrite H1. simpl. rewrite H2. simpl. rewrite <- app_assoc. reflexivity.
Qed.

(** X2. When the platform refuses the user's turn, the assistant's turn is
    never requested: exactly one upstream call is made, and the answer is a
    500 whose detail ends with the upstream error text. *)
Theorem send_message_user_turn_refused w (ci : ConversationInput) cid d p1 e :
  ci_conversation_id ci = Some cid ->
  cid ≠ ""%string ->
  active_conversations w !! cid = Some d ->
  user_id d = ci_user_id ci ->
  vapi (platform_state w) (Message_create cid "user" (Some (ci_message ci))) = (p1, inl e) ->
  send_message ci w =
    ({| active_conversations := active_conversations w;
        platform_state := p1;
        upstream_log := upstream_log w ++
                        [Message_create cid "user" (Some (ci_message ci))] |},
     inl (HTTPException 500 ("Failed to process message: " +:+ exc_str e))).
Proof.
  intros Hid Hne Hd Hown H1. run_handler.
  rewrite Hid, (truthy_id_Some _ Hne). simpl. rewrite Hd.
  rewrite bool_decide_eq_false_2 by (intros Hx; done). simpl.
  rewrite H1. reflexivity.
Qed.

(** X3. When the user's turn is accepted and the assistant's turn fails, the
    request fails with a 500 although the user's message has been posted
    upstream: both calls are on record and nothing retracts the first. *)
Theorem send_message_reply_failure_keeps_user_turn
    w (ci : ConversationInput) cid d p1 p2 (m : vapi_obj) e :
  ci_conversation_id ci = Some cid ->
  cid ≠ ""%string ->
  active_conversations w !! cid = Some d ->
  user_id d = ci_user_id ci ->
  vapi (platform_state w) (Message_create cid "user" (Some (ci_message ci))) = (p1, inr m) ->
  vapi p1 (Message_create cid "assistant" None) = (p2, inl e) ->
  send_message ci w =
    ({| active_conversations := active_conversations w;
        platform_state := p2;
        upstream_log := upstream_log w ++
                        [Message_create cid "user" (Some (ci_message ci));
                         Message_create cid "assistant" None] |},
     inl (HTTPException 500 ("Failed to process message: " +:+ exc_str e))).
Proof.
  intros Hid Hne Hd Hown H1 H2. run_handler.
  rewrite Hid, (truthy_id_Some _ Hne). simpl. rewrite Hd.
  rewrite bool_decide_eq_false_2 by (intros Hx; done). simpl.
  rewrite H1. simpl. rewrite H2. simpl. rewrite <- app_assoc. reflexivity.
Qed.

(** X4. An empty string as conversation id is treated exactly like a missing
    id, whatever the registry holds, so a session stored under the empty id
    cannot be messaged even by its owner. *)
Theorem send_message_empty_id_is_missing w (ci : ConversationInput) :
  ci_conversation_id ci = Some ""%string ->
  send_message ci w =
    send_message (ConversationInput_init (ci_message ci) None (ci_user_id ci)) w /\
  (send_message ci w).1 = w /\
  is_error (send_message ci w).2 = true.
Proof.
  intros Hid. run_handler. rewrite Hid. simpl. done.
Qed.

(** *** List Conversations: who sees what *)

(** X5. A registered session is listed for exactly one user, the owner
    stored in its record. *)
Theorem session_listed_for_its_owner_exactly w cid d uid :
  active_conversations w !! cid = Some d ->
  listed uid cid w <-> uid = user_id d.
Proof.
  intros Hd. rewrite listed_iff. split.
  - intros (d' & Hd' & Hu). congruence.
  - intros ->. eauto.
Qed.

(** X6. A user who owns no session gets an empty listing, as a normal
    answer and not as an error, and the state is left as it was. *)
Theorem listing_without_sessions_is_empty w uid :
  (forall cid d, active_conversations w !! cid = Some d -> user_id d ≠ uid) ->
  get_user_conversations uid w = (w, inr (ConversationsReply ∅)).
Proof.
  intros Hnone. rewrite get_user_conversations_eq. do 3 f_equal.
  apply map_empty. intros cid. apply map_lookup_filter_None.
  destruct (active_conversations w !! cid) as [d|] eqn:Hd; [right | by left].
  intros d' [= <-]. simpl. eauto.
Qed.

(** *** Delete Session: the remaining paths *)

(** X7. The owner's delete, accepted upstream: one upstream call, the
    deletion of that conversation, then the entry leaves the registry and the
    answer is the success message. *)
Theorem delete_conversation_owner_success w cid (req : Request) data d p (o : vapi_obj) :
  request_json req = inr data ->
  body_get_user_id data = inr (PStr (user_id d)) ->
  active_conversations w !! cid = Some d ->
  vapi (platform_state w) (Conversation_delete cid) = (p, inr o) ->
  delete_conversation cid req w =
    ({| active_conversations := delete cid (active_conversations w);
        platform_state := p;
        upstream_log := upstream_log w ++ [Conversation_delete cid] |},
     inr (DeleteReply "success" "Conversation deleted")).
Proof.
  intros Hj Hu Hd Hv. run_handler.
  rewrite Hj. simpl. rewrite Hu. simpl. rewrite Hd. simpl.
  rewrite bool_decide_eq_true_2 by done. simpl. rewrite Hv. reflexivity.
Qed.

Lemma str_ne_other owner (v : pyval) : v ≠ PStr owner -> str_ne owner v = true.
Proof.
  destruct v; simpl; try done.
  intros Hv. rewrite bool_decide_eq_false_2; [done | congruence].
Qed.

(** X8. A delete whose [user_id] is anything but the stored owner, another
    string or a value that is not a string at all, fails and changes nothing:
    no upstream call, no removal. *)
Theorem delete_conversation_non_owner_is_inert w cid (req : Request) data (v : pyval) d :
  request_json req = inr data ->
  body_get_user_id data = inr v ->
  active_conversations w !! cid = Some d ->
  v ≠ PStr (user_id d) ->
  (delete_conversation cid req w).1 = w /\
  is_error (delete_conversation cid req w).2 = true.
Proof.
  intros Hj Hu Hd Hv. run_handler.
  rewrite Hj. simpl. rewrite Hu. simpl. rewrite Hd. simpl.
  rewrite (str_ne_other _ _ Hv). done.
Qed.

(** X9. The body is read before the registry is consulted: a body that is
    not JSON, or JSON that is not an object, fails the request with the body
    error in the detail, for registered and unregistered ids alike, and
    changes nothing. *)
Theorem delete_conversation_bad_body w cid (req : Request) e :
  request_json req = inl e \/
  (exists data, request_json req = inr data /\ body_get_user_id data = inl e) ->
  delete_conversation cid req w =
    (w, inl (HTTPException 500 ("Failed to delete conversation: " +:+ exc_str e))).
Proof.
  intros [Hj | (data & Hj & Hu)]; run_handler; rewrite Hj; simpl; [done|].
  rewrite Hu. reflexivity.
Qed.

(** X10. Delete Session never touches another conversation's entry. *)
Theorem delete_conversation_other_ids_untouched w cid cid' (req : Request) :
  cid' ≠ cid ->
  active_conversations (delete_conversation cid req w).1 !! cid' =
    active_conversations w !! cid'.
Proof.
  intros Hne.
  destruct (delete_conversation_cases w cid req)
    as [[_ ->] | (d & p & o & _ & _ & _ & ->)]; [done|].
  by apply lookup_delete_ne.
Qed.

(** X11. The [del] statement of Delete Session never raises [KeyError]: with
    the removal written as a [del] that fails on a missing key, the handler
    is the same function. *)
Theorem delete_conversation_del_never_raises w cid (req : Request) :
  delete_conversation_del cid req w = delete_conversation cid req w.
Proof.
  run_handler.
  destruct (request_json req) as [e|data]; simpl; [done|].
  destruct (body_get_user_id data) as [e|v]; simpl; [done|].
  destruct (active_conversations w !! cid) as [d|] eqn:Hd; simpl; [|done].
  destruct (str_ne (user_id d) v); simpl; [done|].
  destruct (vapi (platform_state w) _) as [p [e|o]]; simpl; [done|].
  rewrite Hd. reflexivity.
Qed.

(** *** Create Session: the upstream trace *)

(** X12. Create Session with both upstream calls accepted: the assistant is
    created first, the conversation is created for that assistant with the
    owner and the topic as metadata, the record is stored under the
    conversation's id, and the answer names both ids and the topic. *)
Theorem create_assistant_success w (s : NewSession) p1 p2 (a c : vapi_obj) :
  vapi (platform_state w)
       (Assistant_create (assistant_name (ns_topic s)) assistant_model
          (instructions_text (ns_topic s) (ns_difficulty_level s))) = (p1, inr a) ->
  vapi p1 (Conversation_create (obj_id a)
             [("user_id", ns_user_id s); ("topic", ns_topic s)]%string) = (p2, inr c) ->
  create_assistant s w =
    ({| active_conversations :=
          <[obj_id c := {| assistant_id := obj_id a; topic := ns_topic s;
                           user_id := ns_user_id s |}]> (active_conversations w);
        platform_state := p2;
        upstream_log := upstream_log w ++
          [Assistant_create (assistant_name (ns_topic s)) assistant_model
             (instructions_text (ns_topic s) (ns_difficulty_level s));
           Conversation_create (obj_id a)
             [("user_id", ns_user_id s); ("topic", ns_topic s)]%string] |},
     inr (CreateReply (obj_id c) (obj_id a) (ns_topic s))).
Proof.
  intros Ha Hc. run_handler. simpl. rewrite Ha. simpl. rewrite Hc. simpl.
  rewrite <- app_assoc. reflexivity.
Qed.

(** X13. When the assistant cannot be created, no conversation is asked
    for: one upstream call, and a 500 whose detail ends with the upstream
    error text. *)
Theorem create_assistant_stops_at_first_failure w (s : NewSession) p1 e :
  vapi (platform_state w)
       (Assistant_create (assistant_name (ns_topic s)) assistant_model
          (instructions_text (ns_topic s) (ns_difficulty_level s))) = (p1, inl e) ->
  create_assistant s w =
    ({| active_conversations := active_conversations w;
        platform_state := p1;
        upstream_log := upstream_log w ++
          [Assistant_create (assistant_name (ns_topic s)) assistant_model
             (instructions_text (ns_topic s) (ns_difficulty_level s))] |},
     inl (HTTPException 500 ("Failed to create assistant: " +:+ exc_str e))).
Proof.
  intros Ha. run_handler. simpl. rewrite Ha. reflexivity.
Qed.

(** X14. When the conversation cannot be created, the assistant created a
    moment before is left on the platform: the trace ends with the failed
    conversation creation and no call follows it. *)
Theorem create_assistant_leaves_assistant_upstream w (s : NewSession) p1 p2 (a : vapi_obj) e :
  vapi (platform_state w)
       (Assistant_create (assistant_name (ns_topic s)) assistant_model
          (instructions_text (ns_topic s) (ns_difficulty_level s))) = (p1, inr a) ->
  vapi p1 (Conversation_create (obj_id a)
             [("user_id", ns_user_id s); ("topic", ns_topic s)]%string) = (p2, inl e) ->
  create_assistant s w =
    ({| active_conversations := active_conversations w;
        platform_state := p2;
        upstream_log := upstream_log w ++
          [Assistant_create (assistant_name (ns_topic s)) assistant_model
             (instructions_text (ns_topic s) (ns_difficulty_level s));
           Conversation_create (obj_id a)
             [("user_id", ns_user_id s); ("topic", ns_topic s)]%string] |},
     inl (HTTPException 500 ("Failed to create assistant: " +:+ exc_str e))).
Proof.
  intros Ha Hc. run_handler. simpl. rewrite Ha. simpl. rewrite Hc. simpl.
  rewrite <- app_assoc. reflexivity.
Qed.

(** *** How the handlers compose *)

(** X15. Create then delete is a round trip on the registry: when Create
    Session stored its record under an id that was free, a Delete Session of
    that id that succeeds gives back the registry from before the creation. *)
Theorem create_then_delete_restores_registry
    w w1 (s : NewSession) cid aid t (req : Request) (r : reply) :
  create_assistant s w = (w1, inr (CreateReply cid aid t)) ->
  active_conversations w !! cid = None ->
  (delete_conversation cid req w1).2 = inr r ->
  active_conversations (delete_conversation cid req w1).1 = active_conversations w.
Proof.
  intros Hc Hfree Hdel.
  destruct (create_assistant_cases w s)
    as [[Herr _] | (p1 & a & p2 & c & _ & _ & Hr & Hreg)].
  { rewrite Hc in Herr. discriminate. }
  rewrite Hc in Hr, Hreg. simpl in Hr, Hreg. injection Hr as -> -> _.
  destruct (delete_conversation_cases w1 (obj_id c) req)
    as [[Hst _] | (d & p & o & _ & _ & _ & ->)].
  { rewrite Hdel in Hst. discriminate. }
  rewrite Hreg. by apply delete_insert_id.
Qed.

(** X16. The creator of a session can message it at once: a Send Message
    with the returned id and the creator's [user_id] passes both checks, and
    its first upstream call posts the user's text to that conversation. *)
Theorem created_session_accepts_owner_message
    w w1 (s : NewSession) cid aid t (msg : string) :
  create_assistant s w = (w1, inr (CreateReply cid aid t)) ->
  cid ≠ ""%string ->
  exists rest,
    upstream_log
      (send_message (ConversationInput_init msg (Some cid) (ns_user_id s)) w1).1 =
    upstream_log w1 ++ Message_create cid "user" (Some msg) :: rest.
Proof.
  intros Hc Hne.
  destruct (create_assistant_cases w s)
    as [[Herr _] | (p1 & a & p2 & c & _ & _ & Hr & Hreg)].
  { rewrite Hc in Herr. discriminate. }
  rewrite Hc in Hr, Hreg. simpl in Hr, Hreg. injection Hr as -> -> _.
  run_handler. cbn [ConversationInput_init ci_conversation_id ci_user_id ci_message].
  rewrite (truthy_id_Some _ Hne). simpl.
  rewrite Hreg, lookup_insert_eq. simpl.
  rewrite bool_decide_eq_false_2 by (intros Hx; done). simpl.
  destruct (vapi (platform_state w1) _) as [q1 [e|m]]; simpl; [by exists []|].
  destruct (vapi q1 _) as [q2 [e|m']]; simpl; rewrite <- app_assoc; eauto.
Qed.

(** X17. Only Create Session writes records: after any other request, every
    record found in the registry was there before, unchanged, so the owner of
    a session never changes under send, list, delete or health requests. *)
Theorem only_create_writes_records w (r : request) cid d :
  is_create r = false ->
  active_conversations (handle r w).1 !! cid = Some d ->
  active_conversations w !! cid = Some d.
Proof.
  destruct r as [s|ci|uid|cid' body|]; simpl; intros Hr; try done.
  - by rewrite send_message_registry.
  - destruct (delete_conversation_cases w cid' body)
      as [[_ ->] | (d' & p & o & _ & _ & _ & ->)]; [done|].
    by intros [_ ?]%lookup_delete_Some.
Qed.

Lemma truthy_id_inv (o : option string) cid : truthy_id o = Some cid -> o = Some cid.
Proof. destruct o as [[|a x]|]; simpl; congruence. Qed.

(** X18. Every handler makes at most two upstream calls, and only calls of
    its own kind: creations for Create Session, messages of the addressed
    conversation for Send Message, the deletion of the addressed conversation
    for Delete Session, none for List Conversations and Health Check. *)
Theorem handle_upstream_calls_by_kind w (r : request) :
  exists new,
    upstream_log (handle r w).1 = upstream_log w ++ new /\
    Forall (call_of_request r) new /\
    (length new <= 2)%nat.
Proof.
  destruct r as [s|ci|uid|cid body|]; cbn [handle].
  - run_handler. simpl.
    destruct (vapi (platform_state w) _) as [p1 [e|a]]; simpl.
    { eexists [_]. repeat split; [by repeat constructor | simpl; lia]. }
    destruct (vapi p1 _) as [p2 [e|c]]; simpl; rewrite <- app_assoc;
      eexists [_; _]; (repeat split; [by repeat constructor | simpl; lia]).
  - run_handler.
    destruct (truthy_id _) as [cid|] eqn:Hid; simpl.
    2:{ exists []. rewrite app_nil_r. repeat split; [constructor | simpl; lia]. }
    apply truthy_id_inv in Hid.
    destruct (active_conversations w !! cid) as [d|]; simpl.
    2:{ exists []. rewrite app_nil_r. repeat split; [constructor | simpl; lia]. }
    case_bool_decide; simpl.
    { exists []. rewrite app_nil_r. repeat split; [constructor | simpl; lia]. }
    destruct (vapi (platform_state w) _) as [p1 [e|m]]; simpl.
    { eexists [_]. repeat split; [by repeat constructor | simpl; lia]. }
    destruct (vapi p1 _) as [p2 [e|m']]; simpl; rewrite <- app_assoc;
      eexists [_; _]; (repeat split; [by repeat constructor | simpl; lia]).
  - exists []. rewrite app_nil_r. repeat split; [constructor | simpl; lia].
  - run_handler.
    destruct (request_json body) as [e|data]; simpl.
    { exists []. rewrite app_nil_r. repeat split; [constructor | simpl; lia]. }
    destruct (body_get_user_id data) as [e|v]; simpl.
    { exists []. rewrite app_nil_r. repeat split; [constructor | simpl; lia]. }
    destruct (active_conversations w !! cid) as [d|]; simpl.
    2:{ exists []. rewrite app_nil_r. repeat split; [constructor | simpl; lia]. }
    destruct (str_ne (user_id d) v); simpl.
    { exists []. rewrite app_nil_r. repeat split; [constructor | simpl; lia]. }
    destruct (vapi (platform_state w) _) as [p [e|o]]; simpl;
      eexists [_]; (repeat split; [by repeat constructor | simpl; lia]).
  - exists []. rewrite app_nil_r. repeat split; [constructor | simpl; lia].
Qed.

(** *** Sequences of requests *)

Lemma handle_registry_size w (r : request) :
  (size (active_conversations (handle r w).1)
   <= size (active_conversations w) + (if is_create r then 1 else 0))%nat.
Proof.
  destruct r as [s|ci|uid|cid body|]; simpl.
  - destruct (create_assistant_cases w s)
      as [[_ ->] | (p1 & a & p2 & c & _ & _ & _ & ->)]; [lia|].
    rewrite map_size_insert. destruct (_ !! _); simpl; lia.
  - rewrite send_message_registry. lia.
  - lia.
  - destruct (delete_conversation_cases w cid body)
      as [[_ ->] | (d & p & o & _ & _ & _ & ->)]; [lia|].
    rewrite map_size_delete. destruct (_ !! _); simpl; lia.
  - lia.
Qed.

(** X19. However requests are interleaved, the registry holds at most one
    more session per Create Session request served. *)
Theorem serve_registry_size (rs : list request) w :
  (size (active_conversations (serve rs w).1)
   <= size (active_conversations w) + length (List.filter is_create rs))%nat.
Proof.
  revert w. induction rs as [|r rs IH]; intros w; simpl; [lia|].
  pose proof (handle_registry_size w r) as Hr.
  destruct (handle r w) as [w1 answer] eqn:Hh. simpl in Hr.
  specialize (IH w1). destruct (serve rs w1) as [w2 answers]. simpl in *.
  destruct (is_create r); simpl; lia.
Qed.

End Properties.

(** ** The theorems at concrete requests *)

(** Send Message on the registry holding [c1] of [u1]: an unknown id and a
    foreign id both come back as 500, with the 404 and the 403 in the text. *)
Lemma send_message_auth_failures_leave_as_500_witness :
  let w := one_session counting_platform 0%nat in
  (@send_message counting_platform (ConversationInput_init "hi" (Some "nope") "u1") w).2 =
    inl (HTTPException 500 "Failed to process message: 404: Conversation not found") /\
  (@send_message counting_platform (ConversationInput_init "hi" (Some "c1") "u2") w).2 =
    inl (HTTPException 500
           "Failed to process message: 403: Unauthorized access to conversation").
Proof.
  intros w. split.
  - destruct (send_message_auth_failures_leave_as_500 (E:=counting_platform) w
                (ConversationInput_init "hi" (Some "nope") "u1") "nope" eq_refl)
      as [H404 _]; [discriminate|].
    rewrite H404 by reflexivity. reflexivity.
  - destruct (send_message_auth_failures_leave_as_500 (E:=counting_platform) w
                (ConversationInput_init "hi" (Some "c1") "u2") "c1" eq_refl)
      as [_ H403]; [discriminate|].
    rewrite (H403 {| assistant_id := "a1"; topic := "Photosynthesis"; user_id := "u1" |})
      by (reflexivity || discriminate).
    reflexivity.
Defined.

Lemma send_message_missing_id_leaves_as_500_witness :
  http_status
    (@send_message counting_platform (ConversationInput_init "hi" None "u1")
       (one_session counting_platform 0%nat)).2 = 500.
Proof.
  rewrite (send_message_missing_id_leaves_as_500 (E:=counting_platform)) by reflexivity.
  reflexivity.
Defined.

Lemma send_message_unauthorized_no_upstream_witness :
  let w := one_session counting_platform 0%nat in
  upstream_log
    (@send_message counting_platform (ConversationInput_init "hi" (Some "c1") "u2") w).1 = [] /\
  upstream_log
    (@send_message counting_platform (ConversationInput_init "hi" (Some "c2") "u1") w).1 = [].
Proof.
  intros w. split.
  - apply (send_message_unauthorized_no_upstream (E:=counting_platform) w
             (ConversationInput_init "hi" (Some "c1") "u2") "c1" eq_refl).
    right. exists {| assistant_id := "a1"; topic := "Photosynthesis"; user_id := "u1" |}.
    split; [reflexivity | discriminate].
  - apply (send_message_unauthorized_no_upstream (E:=counting_platform) w
             (ConversationInput_init "hi" (Some "c2") "u1") "c2" eq_refl).
    left. reflexivity.
Defined.

(** The conversation cannot be created once the assistant has been. *)
Lemma create_assistant_all_or_nothing_witness :
  let w := one_session rejecting_platform 0%nat in
  let s := NewSession_init "Optics" None "u2" in
  http_status (@create_assistant rejecting_platform s w).2 = 500 /\
  active_conversations (@create_assistant rejecting_platform s w).1 = active_conversations w.
Proof.
  intros w s. apply (create_assistant_all_or_nothing (E:=rejecting_platform) w s).
  right.
  exists 1%nat, {| obj_id := "asst_0"; obj_content := "" |}, 1%nat,
    (PyException "VapiError" "request rejected").
  split; reflexivity.
Defined.

Lemma created_session_listed_for_owner_only_witness :
  let w := fresh_world counting_platform 0%nat in
  let s := NewSession_init "Photosynthesis" None "u1" in
  exists cid aid,
    (@create_assistant counting_platform s w).2 = inr (CreateReply cid aid "Photosynthesis") /\
    @listed counting_platform "u1" cid (@create_assistant counting_platform s w).1 /\
    ~ @listed counting_platform "u2" cid (@create_assistant counting_platform s w).1.
Proof.
  intros w s.
  destruct (created_session_listed_for_owner_only (E:=counting_platform) w
              (@create_assistant counting_platform s w).1 s
              (CreateReply "conv_1" "asst_0" "Photosynthesis"))
    as (cid & aid & Hr & Hown & Hother).
  { vm_compute. reflexivity. }
  injection Hr as <- <-.
  eexists _, _. split; [|split].
  - vm_compute. reflexivity.
  - exact Hown.
  - apply Hother. discriminate.
Defined.

(** The owner asks, the platform refuses: the entry stays. *)
Lemma delete_conversation_upstream_failure_witness :
  let w := one_session rejecting_platform 0%nat in
  let req := json_body (PDict [("user_id"%string, PStr "u1")]) in
  (@delete_conversation rejecting_platform "c1" req w).2 =
    inl (HTTPException 500 "Failed to delete conversation: request rejected") /\
  upstream_log (@delete_conversation rejecting_platform "c1" req w).1 =
    [Conversation_delete "c1"] /\
  active_conversations (@delete_conversation rejecting_platform "c1" req w).1 !! "c1"%string =
    Some {| assistant_id := "a1"; topic := "Photosynthesis"; user_id := "u1" |}.
Proof.
  intros w req.
  destruct (delete_conversation_upstream_failure (E:=rejecting_platform) w "c1" req
              0%nat (PyException "VapiError" "request rejected") eq_refl)
    as (_ & _ & _ & Hkeep).
  split; [vm_compute; reflexivity|]. split; [vm_compute; reflexivity|].
  apply Hkeep. reflexivity.
Defined.

Lemma delete_conversation_unknown_id_leaves_as_500_witness :
  (@delete_conversation counting_platform "nope"
     (json_body (PDict [("user_id"%string, PStr "u1")]))
     (one_session counting_platform 0%nat)).2 =
    inl (HTTPException 500 "Failed to delete conversation: 404: Conversation not found").
Proof.
  destruct (delete_conversation_unknown_id_leaves_as_500 (E:=counting_platform)
              (one_session counting_platform 0%nat) "nope"
              (json_body (PDict [("user_id"%string, PStr "u1")])) eq_refl)
    as (_ & _ & Hres).
  rewrite (Hres _ _ eq_refl eq_refl). reflexivity.
Defined.

Lemma delete_conversation_without_user_id_is_inert_witness :
  let w := one_session counting_platform 0%nat in
  let req := json_body (PDict [("reason"%string, PStr "done")]) in
  (@delete_conversation counting_platform "c1" req w).1 = w /\
  is_error (@delete_conversation counting_platform "c1" req w).2 = true.
Proof.
  intros w req.
  destruct (delete_conversation_without_user_id_is_inert (E:=counting_platform) w "c1" req
              [("reason"%string, PStr "done")] eq_refl eq_refl)
    as (Hw & _ & _ & Herr).
  split; assumption.
Defined.

(** C2, the claim as written, fails: Create Session accepts an empty topic
    and an empty [user_id], and the record it stores has an empty owner. *)
Lemma create_assistant_accepts_empty_user_id :
  let w := fresh_world counting_platform 0%nat in
  let s := NewSession_init "" None "" in
  registry_inv (active_conversations w) /\
  (@create_assistant counting_platform s w).2 = inr (CreateReply "conv_1" "asst_0" "") /\
  active_conversations (@create_assistant counting_platform s w).1 !! "conv_1"%string =
    Some {| assistant_id := "asst_0"; topic := ""; user_id := "" |} /\
  ~ registry_inv (active_conversations (@create_assistant counting_platform s w).1).
Proof.
  intros w s.
  assert (Hstored :
    active_conversations (@create_assistant counting_platform s w).1 !! "conv_1"%string =
      Some {| assistant_id := "asst_0"; topic := ""; user_id := "" |})
    by (vm_compute; reflexivity).
  split; [|split; [|split]].
  - intros cid d Hd. simpl in Hd. rewrite lookup_empty in Hd. discriminate.
  - vm_compute. reflexivity.
  - exact Hstored.
  - intros Hinv. destruct (Hinv _ _ Hstored) as [Hu _]. apply Hu. reflexivity.
Qed.

Lemma handlers_preserve_registry_inv_witness :
  let w := one_session counting_platform 0%nat in
  registry_inv
    (active_conversations
       (@handle counting_platform (ReqCreate (NewSession_init "Optics" None "u2")) w).1).
Proof.
  intros w. apply (handlers_preserve_registry_inv (E:=counting_platform)).
  - intros p nm mdl ins p' o [= _ <-]. discriminate.
  - intros s [= <-]. discriminate.
  - intros cid d Hd. unfold w, one_session in Hd. simpl in Hd.
    apply lookup_singleton_Some in Hd as [_ <-]. split; discriminate.
Defined.

(** ** Further properties at concrete requests *)

Lemma send_message_owner_success_witness :
  (@send_message counting_platform
     (ConversationInput_init "Explain chlorophyll" (Some "c1") "u1")
     (one_session counting_platform 0%nat)).2 =
    inr (SendReply "reply to turn 1" "msg_1" "c1").
Proof.
  rewrite (send_message_owner_success (E:=counting_platform)
             (one_session counting_platform 0%nat)
             (ConversationInput_init "Explain chlorophyll" (Some "c1") "u1") "c1"
             {| assistant_id := "a1"; topic := "Photosynthesis"; user_id := "u1" |}
             1%nat 2%nat
             {| obj_id := "msg_0"; obj_content := "reply to turn 0" |}
             {| obj_id := "msg_1"; obj_content := "reply to turn 1" |})
    by (reflexivity || discriminate).
  reflexivity.
Defined.

Lemma send_message_user_turn_refused_witness :
  let w := one_session rejecting_platform 0%nat in
  let ci := ConversationInput_init "Explain chlorophyll" (Some "c1") "u1" in
  upstream_log (@send_message rejecting_platform ci w).1 =
    [Message_create "c1" "user" (Some "Explain chlorophyll"%string)] /\
  (@send_message rejecting_platform ci w).2 =
    inl (HTTPException 500 "Failed to process message: request rejected").
Proof.
  intros w ci.
  rewrite (send_message_user_turn_refused (E:=rejecting_platform) w ci "c1"
             {| assistant_id := "a1"; topic := "Photosynthesis"; user_id := "u1" |}
             0%nat (PyException "VapiError" "request rejected"))
    by (reflexivity || discriminate).
  split; reflexivity.
Defined.

Lemma send_message_reply_failure_keeps_user_turn_witness :
  let w := one_session mute_platform 0%nat in
  let ci := ConversationInput_init "Explain chlorophyll" (Some "c1") "u1" in
  upstream_log (@send_message mute_platform ci w).1 =
    [Message_create "c1" "user" (Some "Explain chlorophyll"%string);
     Message_create "c1" "assistant" None] /\
  (@send_message mute_platform ci w).2 =
    inl (HTTPException 500 "Failed to process message: no reply generated").
Proof.
  intros w ci.
  rewrite (send_message_reply_failure_keeps_user_turn (E:=mute_platform) w ci "c1"
             {| assistant_id := "a1"; topic := "Photosynthesis"; user_id := "u1" |}
             1%nat 1%nat
             {| obj_id := "msg_0"; obj_content := "reply to turn 0" |}
             (PyException "VapiError" "no reply generated"))
    by (reflexivity || discriminate).
  split; reflexivity.
Defined.

(** A session stored under the empty id, and its owner's message to it. *)
Lemma send_message_empty_id_is_missing_witness :
  let w : @world counting_platform :=
    {| active_conversations :=
         {[ ""%string := {| assistant_id := "a1"; topic := "Optics"; user_id := "u1" |} ]};
       platform_state := (0%nat : @platform counting_platform);
       upstream_log := [] |} in
  let ci := ConversationInput_init "hello" (Some "") "u1" in
  (@send_message counting_platform ci w).1 = w /\
  is_error (@send_message counting_platform ci w).2 = true.
Proof.
  intros w ci.
  destruct (send_message_empty_id_is_missing (E:=counting_platform) w ci eq_refl)
    as (_ & Hw & Herr).
  split; assumption.
Defined.

Lemma session_listed_for_its_owner_exactly_witness :
  let w := one_session counting_platform 0%nat in
  @listed counting_platform "u1" "c1" w /\ ~ @listed counting_platform "u2" "c1" w.
Proof.
  intros w.
  pose proof (fun uid =>
    session_listed_for_its_owner_exactly (E:=counting_platform) w "c1"
      {| assistant_id := "a1"; topic := "Photosynthesis"; user_id := "u1" |} uid eq_refl)
    as Hiff.
  split.
  - apply Hiff. reflexivity.
  - intros Hl. apply Hiff in Hl. discriminate.
Defined.

Lemma listing_without_sessions_is_empty_witness :
  (@get_user_conversations counting_platform "u2" (one_session counting_platform 0%nat)).2 =
    inr (ConversationsReply ∅).
Proof.
  rewrite (listing_without_sessions_is_empty (E:=counting_platform)); [reflexivity|].
  intros cid d Hd. unfold one_session in Hd. simpl in Hd.
  apply lookup_singleton_Some in Hd as [_ <-]. discriminate.
Defined.

Lemma delete_conversation_owner_success_witness :
  let w := one_session counting_platform 0%nat in
  let req := json_body (PDict [("user_id"%string, PStr "u1")]) in
  (@delete_conversation counting_platform "c1" req w).2 =
    inr (DeleteReply "success" "Conversation deleted") /\
  active_conversations (@delete_conversation counting_platform "c1" req w).1 !! "c1"%string
    = None.
Proof.
  intros w req.
  rewrite (delete_conversation_owner_success (E:=counting_platform) w "c1" req
             (PDict [("user_id"%string, PStr "u1")])
             {| assistant_id := "a1"; topic := "Photosynthesis"; user_id := "u1" |}
             0%nat {| obj_id := ""; obj_content := "" |})
    by reflexivity.
  split; [reflexivity | apply lookup_delete_eq].
Defined.

(** A number where the owner's name should be. *)
Lemma delete_conversation_non_owner_is_inert_witness :
  let w := one_session counting_platform 0%nat in
  let req := json_body (PDict [("user_id"%string, PInt 1)]) in
  (@delete_conversation counting_platform "c1" req w).1 = w /\
  is_error (@delete_conversation counting_platform "c1" req w).2 = true.
Proof.
  intros w req.
  apply (delete_conversation_non_owner_is_inert (E:=counting_platform) w "c1" req
           (PDict [("user_id"%string, PInt 1)]) (PInt 1)
           {| assistant_id := "a1"; topic := "Photosynthesis"; user_id := "u1" |});
    (reflexivity || discriminate).
Defined.

(** A JSON array as body, for an id that is not registered. *)
Lemma delete_conversation_bad_body_witness :
  @delete_conversation counting_platform "nope" (json_body (PList []))
    (one_session counting_platform 0%nat) =
    (one_session counting_platform 0%nat,
     inl (HTTPException 500
            "Failed to delete conversation: 'list' object has no attribute 'get'")).
Proof.
  rewrite (delete_conversation_bad_body (E:=counting_platform) _ _ _
             (PyException "AttributeError" "'list' object has no attribute 'get'")).
  - reflexivity.
  - right. exists (PList []). split; reflexivity.
Defined.

Lemma delete_conversation_other_ids_untouched_witness :
  let w := one_session counting_platform 0%nat in
  let req := json_body (PDict [("user_id"%string, PStr "u1")]) in
  active_conversations (@delete_conversation counting_platform "c2" req w).1 !! "c1"%string =
    Some {| assistant_id := "a1"; topic := "Photosynthesis"; user_id := "u1" |}.
Proof.
  intros w req.
  rewrite (delete_conversation_other_ids_untouched (E:=counting_platform) w "c2" "c1" req)
    by discriminate.
  reflexivity.
Defined.

Lemma create_assistant_success_witness :
  let w := fresh_world counting_platform 0%nat in
  let s := NewSession_init "Photosynthesis" (Some "expert") "u1" in
  (@create_assistant counting_platform s w).2 =
    inr (CreateReply "conv_1" "asst_0" "Photosynthesis") /\
  upstream_log (@create_assistant counting_platform s w).1 =
    [Assistant_create "Feynman Learning Assistant - Photosynthesis"
       "anthropic/claude-3-opus-20240229" (instructions_text "Photosynthesis" "expert");
     Conversation_create "asst_0"
       [("user_id", "u1"); ("topic", "Photosynthesis")]%string].
Proof.
  intros w s.
  rewrite (create_assistant_success (E:=counting_platform) w s 1%nat 2%nat
             {| obj_id := "asst_0"; obj_content := "" |}
             {| obj_id := "conv_1"; obj_content := "" |})
    by reflexivity.
  split; reflexivity.
Defined.

Lemma create_assistant_stops_at_first_failure_witness :
  let w := one_session down_platform 0%nat in
  let s := NewSession_init "Optics" None "u2" in
  length (upstream_log (@create_assistant down_platform s w).1) = 1%nat /\
  (@create_assistant down_platform s w).2 =
    inl (HTTPException 500 "Failed to create assistant: platform unreachable").
Proof.
  intros w s.
  rewrite (create_assistant_stops_at_first_failure (E:=down_platform) w s 0%nat
             (PyException "ConnectionError" "platform unreachable"))
    by reflexivity.
  split; reflexivity.
Defined.

Lemma create_assistant_leaves_assistant_upstream_witness :
  let w := one_session rejecting_platform 0%nat in
  let s := NewSession_init "Optics" None "u2" in
  upstream_log (@create_assistant rejecting_platform s w).1 =
    [Assistant_create "Feynman Learning Assistant - Optics"
       "anthropic/claude-3-opus-20240229" (instructions_text "Optics" "beginner");
     Conversation_create "asst_0" [("user_id", "u2"); ("topic", "Optics")]%string] /\
  (@create_assistant rejecting_platform s w).2 =
    inl (HTTPException 500 "Failed to create assistant: request rejected").
Proof.
  intros w s.
  rewrite (create_assistant_leaves_assistant_upstream (E:=rejecting_platform) w s
             1%nat 1%nat {| obj_id := "asst_0"; obj_content := "" |}
             (PyException "VapiError" "request rejected"))
    by reflexivity.
  split; reflexivity.
Defined.

Lemma create_then_delete_restores_registry_witness :
  let w := fresh_world counting_platform 0%nat in
  let s := NewSession_init "Photosynthesis" None "u1" in
  let req := json_body (PDict [("user_id"%string, PStr "u1")]) in
  active_conversations
    (@delete_conversation counting_platform "conv_1" req
       (@create_assistant counting_platform s w).1).1 = ∅.
Proof.
  intros w s req.
  apply (create_then_delete_restores_registry (E:=counting_platform) w
           (@create_assistant counting_platform s w).1 s
           "conv_1" "asst_0" "Photosynthesis" req
           (DeleteReply "success" "Conversation deleted")).
  - vm_compute. reflexivity.
  - reflexivity.
  - vm_compute. reflexivity.
Defined.

Lemma created_session_accepts_owner_message_witness :
  let w := fresh_world counting_platform 0%nat in
  let s := NewSession_init "Photosynthesis" None "u1" in
  exists rest,
    upstream_log
      (@send_message counting_platform
         (ConversationInput_init "Explain chlorophyll" (Some "conv_1") "u1")
         (@create_assistant counting_platform s w).1).1 =
    upstream_log (@create_assistant counting_platform s w).1 ++
    Message_create "conv_1" "user" (Some "Explain chlorophyll"%string) :: rest.
Proof.
  intros w s.
  apply (created_session_accepts_owner_message (E:=counting_platform) w
           (@create_assistant counting_platform s w).1 s
           "conv_1" "asst_0" "Photosynthesis" "Explain chlorophyll").
  - vm_compute. reflexivity.
  - discriminate.
Defined.

(** A refused delete leaves the record, and the record is the old one. *)
Lemma only_create_writes_records_witness :
  let w := one_session counting_platform 0%nat in
  let r := ReqDelete "c1" (json_body (PDict [("user_id"%string, PStr "u2")])) in
  active_conversations (@handle counting_platform r w).1 !! "c1"%string =
    Some {| assistant_id := "a1"; topic := "Photosynthesis"; user_id := "u1" |} /\
  active_conversations w !! "c1"%string =
    Some {| assistant_id := "a1"; topic := "Photosynthesis"; user_id := "u1" |}.
Proof.
  intros w r.
  assert (Hafter :
    active_conversations (@handle counting_platform r w).1 !! "c1"%string =
      Some {| assistant_id := "a1"; topic := "Photosynthesis"; user_id := "u1" |})
    by (vm_compute; reflexivity).
  split; [exact Hafter|].
  exact (only_create_writes_records (E:=counting_platform) w r "c1" _ eq_refl Hafter).
Defined.
